(** * A shallow embedding of the todo client

    The two React components of the repository,
    [src/client/components/TodoList.tsx] and
    [src/client/components/CreateTodoForm.tsx], are embedded as
    handlers in a small state-and-output monad: a handler reads and
    updates the state held by the component's hooks and emits the
    requests it sends to the tRPC gateway.  The hooks of the libraries
    the components call (React's [useState], tRPC/react-query's
    [useQuery] and [useMutation], the browser's [confirm] and the
    bubbling of a click through the element tree) are modelled by
    their documented contracts, each next to the place it is used. *)

From stdpp Require Import base strings list.

Local Open Scope string_scope.
Local Open Scope list_scope.

(** ** JavaScript values *)

Module Js.

(** A value that is a string or [undefined], as read through
    [todo?.status]. *)
Definition value := option string.

(** [a === b] for a possibly undefined [a] and a string [b]:
    [undefined] is strictly equal to no string. *)
Definition strict_eq (a : value) (b : string) : bool :=
  match a with
  | Some s => bool_decide (s = b)
  | None => false
  end.

End Js.

(** ** Requests to the gateway *)

Module Api.

(** The four procedures the components call: [api.todo.getAll],
    [api.todo.create], [api.todoStatus.update] and [api.todo.delete],
    each with the input object the call site builds. *)
Inductive Request :=
| GetAll (statuses : list string)
| Create (body : string)
| UpdateStatus (todoId : string) (status : string)
| Delete (id : string).

#[global] Instance Request_eq_dec : EqDecision Request.
Proof. solve_decision. Defined.

(** How a mutation ends: react-query calls the [onSuccess] option of
    [useMutation] when the request succeeds, and does not when it
    fails. *)
Inductive Outcome := Succeeded | Failed.

#[global] Instance Outcome_eq_dec : EqDecision Outcome.
Proof. solve_decision. Defined.

End Api.

Import Api.

(** ** Handlers *)

(** A handler over hook state [Σ]: from the state at the event to a
    result, the state after it and the requests sent, oldest first. *)
Definition M (Σ A : Type) : Type := Σ → A * Σ * list Request.

#[global] Instance M_ret {Σ} : MRet (M Σ) := λ A a st, (a, st, []).

#[global] Instance M_bind {Σ} : MBind (M Σ) := λ A B k m st,
  let '(a, st1, out1) := m st in
  let '(b, st2, out2) := k a st1 in
  (b, st2, out1 ++ out2).

Definition get {Σ} : M Σ Σ := λ st, (st, st, []).
Definition modify {Σ} (f : Σ → Σ) : M Σ unit := λ st, ((), f st, []).
Definition send {Σ} (r : Request) : M Σ unit := λ st, ((), st, [r]).

(** The three components of a handler's run. *)
Definition result {Σ A} (m : M Σ A) (st : Σ) : A := (m st).1.1.
Definition after {Σ A} (m : M Σ A) (st : Σ) : Σ := (m st).1.2.
Definition sent {Σ A} (m : M Σ A) (st : Σ) : list Request := (m st).2.

(** [apiContext.todo.getAll.refetch()]: the list query is sent again
    with the input it was declared with. *)
Definition getAll_input : list string := ["completed"; "pending"].
Definition refetch {Σ} : M Σ unit := send (GetAll getAll_input).

(** [useMutation({ onSuccess })] when the mutation settles. *)
Definition settle {Σ} (onSuccess : M Σ unit) (o : Outcome) : M Σ unit :=
  match o with
  | Succeeded => onSuccess
  | Failed => mret ()
  end.

(** ** DOM events *)

Module Dom.

(** The part of React's synthetic event the handlers touch. *)
Record SyntheticEvent := {
  key : string;
  defaultPrevented : bool;
  propagationStopped : bool
}.

Definition keydown (k : string) : SyntheticEvent :=
  {| key := k; defaultPrevented := false; propagationStopped := false |}.

Definition mouse_click : SyntheticEvent :=
  {| key := ""; defaultPrevented := false; propagationStopped := false |}.

Definition preventDefault (e : SyntheticEvent) : SyntheticEvent :=
  {| key := key e; defaultPrevented := true;
     propagationStopped := propagationStopped e |}.

Definition stopPropagation (e : SyntheticEvent) : SyntheticEvent :=
  {| key := key e; defaultPrevented := defaultPrevented e;
     propagationStopped := true |}.

(** Bubbling: the handlers on the path from the target up to the
    root run in that order, until one of them has stopped the
    propagation. *)
Fixpoint bubble {Σ} (path : list (SyntheticEvent → M Σ SyntheticEvent))
    (e : SyntheticEvent) : M Σ SyntheticEvent :=
  match path with
  | [] => mret e
  | h :: rest =>
      e' ← h e;
      if propagationStopped e' then mret e' else bubble rest e'
  end.

End Dom.

(** ** TodoList.tsx *)

Module TodoList.

Import Dom.

(** An element of the list [api.todo.getAll] returns: an object, since
    the delete icon reads [todo.id] unguarded.  Its [status] is read
    through [todo?.status] and compared as a plain string, so it is a
    string or undefined. *)
Record Todo := {
  id : string;
  body : string;
  status : Js.value
}.

#[global] Instance Todo_eq_dec : EqDecision Todo.
Proof. solve_decision. Defined.

(** The hooks of the component: [useState('all')] and the [data] of
    [api.todo.getAll.useQuery], undefined until a response came. *)
Record State := {
  filterStatus : string;
  data : option (list Todo)
}.

Definition initial : State := {| filterStatus := "all"; data := None |}.

(** [const { data: todos = [] } = ...] *)
Definition todos (st : State) : list Todo :=
  match data st with
  | Some l => l
  | None => []
  end.

(** The response of the list query: a result replaces [data], a
    failure leaves it as it was. *)
Definition getAll_settled (response : option (list Todo)) : M State unit :=
  match response with
  | Some l => modify (λ st, {| filterStatus := filterStatus st; data := Some l |})
  | None => mret ()
  end.

(** The callback of [todos.filter] and the filtered list. *)
Definition filterCallback (filterStatus : string) (todo : Todo) : bool :=
  if bool_decide (filterStatus = "all") then true
  else Js.strict_eq (status todo) filterStatus.

Definition filteredTodos (todos : list Todo) (filterStatus : string) : list Todo :=
  List.filter (filterCallback filterStatus) todos.

Definition setFilterStatus (value : string) : M State unit :=
  modify (λ st, {| filterStatus := value; data := data st |}).

Definition handleTabChange (value : string) : M State unit :=
  setFilterStatus value.

(** [api.todoStatus.update.useMutation] *)
Definition updateTodoStatus (todoId status : string) : M State unit :=
  send (UpdateStatus todoId status).


Definition newStatus (currentStatus : Js.value) : string :=
  if Js.strict_eq currentStatus "pending" then "completed" else "pending".

Definition handleClickToUpdateStatus (id : string) (currentStatus : Js.value)
    : M State unit :=
  updateTodoStatus id (newStatus currentStatus).

(** [api.todo.delete.useMutation] *)
Definition deleteTodo (id : string) : M State unit := send (Delete id).


(** [confirm] is the browser's blocking prompt: the user's answer to
    the message. *)
Definition handleDeleteItem (confirm : string → bool) (id : string)
    : M State unit :=
  if confirm "Delete this todo?" then deleteTodo id else mret ().

(** The two [onClick] handlers of a row: the one of the [li] and the
    one of the [XMarkIcon] inside it. *)
Definition li_onClick (todo : Todo) (e : SyntheticEvent)
    : M State SyntheticEvent :=
  handleClickToUpdateStatus (id todo) (status todo);; mret e.

Definition XMarkIcon_onClick (confirm : string → bool) (todo : Todo)
    (e : SyntheticEvent) : M State SyntheticEvent :=
  let e := stopPropagation e in
  handleDeleteItem confirm (id todo);; mret e.

(** Where a click on a row lands: on the [Checkbox.Root], on the
    [label], on the delete icon, or elsewhere in the [li].  Of these
    only the icon and the [li] carry a handler of the component. *)
Inductive Target := RowBody | Checkbox | Label | DeleteIcon.

Definition path (confirm : string → bool) (todo : Todo) (target : Target)
    : list (SyntheticEvent → M State SyntheticEvent) :=
  match target with
  | DeleteIcon => [XMarkIcon_onClick confirm todo; li_onClick todo]
  | RowBody | Checkbox | Label => [li_onClick todo]
  end.

(** The default action of a click: the [label] names the checkbox of
    its row ([htmlFor] and [id] are both [String(todo?.id)]), so a
    click on it, unless its default was prevented, is followed by a
    click on that checkbox. *)
Definition activates (target : Target) : option Target :=
  match target with
  | Label => Some Checkbox
  | _ => None
  end.

Definition click (confirm : string → bool) (todo : Todo) (target : Target)
    : M State SyntheticEvent :=
  e ← bubble (path confirm todo target) mouse_click;
  match activates target with
  | Some control =>
      if defaultPrevented e then mret e
      else bubble (path confirm todo control) mouse_click
  | None => mret e
  end.

(** What a row shows of its todo. *)
Record Row := {
  row_key : string;
  checked : bool;
  line_through : bool;
  label : string
}.

Definition renderRow (todo : Todo) : Row :=
  {| row_key := id todo;
     checked := Js.strict_eq (status todo) "completed";
     line_through := Js.strict_eq (status todo) "completed";
     label := body todo |}.

(** [filteredTodos.map(...)] inside the list element. *)
Definition render (st : State) : list Row :=
  map renderRow (filteredTodos (todos st) (filterStatus st)).

End TodoList.

(** ** CreateTodoForm.tsx *)

Module CreateTodoForm.

Import Dom.

(** The hooks of the component: [useState('')] and
    [api.todo.create.useMutation].  Every call of [mutate] starts a
    request of its own; the requests are numbered in the order of the
    calls, from 1.  The hook keeps the requests that have not settled
    yet, and its result follows the latest call only. *)
Record State := {
  todoBody : string;
  latest : nat;
  inFlight : list nat
}.

Definition initial : State := {| todoBody := ""; latest := 0; inFlight := [] |}.

(** [isLoading], read as [isCreatingTodo]: the request of the latest
    call of [mutate] has not settled. *)
Definition isCreatingTodo (st : State) : bool :=
  bool_decide (latest st ∈ inFlight st).

Definition setTodoBody (value : string) : M State unit :=
  modify (λ st, {| todoBody := value; latest := latest st;
                   inFlight := inFlight st |}).

(** The [mutate] function of the mutation: a new request, now the
    latest, leaves. *)
Definition createTodo (body : string) : M State unit :=
  modify (λ st, {| todoBody := todoBody st; latest := S (latest st);
                   inFlight := inFlight st ++ [S (latest st)] |});;
  send (Create body).

Definition createTodo_onSuccess : M State unit := refetch.

(** The request numbered [n] settles: it is in flight no more, and
    [onSuccess] runs if it succeeded, the latest request or not. *)
Definition createTodo_settled (n : nat) (o : Outcome) : M State unit :=
  modify (λ st, {| todoBody := todoBody st; latest := latest st;
                   inFlight :=
                     List.filter (λ m, negb (bool_decide (m = n))) (inFlight st) |});;
  settle createTodo_onSuccess o.

Definition handleKeyDown (e : SyntheticEvent) : M State SyntheticEvent :=
  if bool_decide (key e = "Enter") then
    let e := preventDefault e in
    st ← get;
    createTodo (todoBody st);;
    setTodoBody "";;
    mret e
  else mret e.

(** [onChange] of the input. *)
Definition input_onChange (value : string) : M State unit :=
  setTodoBody value.

(** [onClick] of the Add button. *)
Definition button_onClick : M State unit :=
  st ← get;
  createTodo (todoBody st);;
  setTodoBody "".

(** [disabled={isCreatingTodo}]: a click on a disabled button runs
    no handler. *)
Definition button_disabled (st : State) : bool := isCreatingTodo st.

Definition click_button : M State unit :=
  st ← get;
  if button_disabled st then mret () else button_onClick.

(** What happens to the form: the user types, presses a key in the
    input or clicks the button, or one of the create requests
    settles. *)
Inductive Event :=
| Change (value : string)
| KeyDown (key : string)
| Click
| Settled (n : nat) (o : Outcome).

#[global] Instance Event_eq_dec : EqDecision Event.
Proof. solve_decision. Defined.

Definition step (ev : Event) : M State unit :=
  match ev with
  | Change value => input_onChange value
  | KeyDown k => handleKeyDown (keydown k);; mret ()
  | Click => click_button
  | Settled n o => createTodo_settled n o
  end.

(** A run of the form: each event with the requests it sent, and the
    state at the end. *)
Fixpoint trace (evs : list Event) (st : State)
    : list (Event * list Request) * State :=
  match evs with
  | [] => ([], st)
  | ev :: rest =>
      let '(log, st') := trace rest (after (step ev) st) in
      ((ev, sent (step ev) st) :: log, st')
  end.

Definition is_settled (ev : Event) : bool :=
  match ev with
  | Settled _ _ => true
  | _ => false
  end.

Definition is_enter (ev : Event) : bool :=
  match ev with
  | KeyDown k => bool_decide (k = "Enter")
  | _ => false
  end.


End CreateTodoForm.

(** ** The page: both components and the gateway *)

Module Page.

(** The hook state of the two components. *)
Record State := {
  todoList : TodoList.State;
  createTodoForm : CreateTodoForm.State
}.





(** What the page shows: the rows, the active tab, the text of the
    input and whether the Add button is disabled. *)
Record View := {
  rows : list TodoList.Row;
  activeTab : string;
  inputValue : string;
  addDisabled : bool
}.

Definition render (st : State) : View :=
  {| rows := TodoList.render (todoList st);
     activeTab := TodoList.filterStatus (todoList st);
     inputValue := CreateTodoForm.todoBody (createTodoForm st);
     addDisabled := CreateTodoForm.button_disabled (createTodoForm st) |}.

End Page.

(** The gateway is outside the client: any store with any way of
    serving a request.  The store after a handler is the store that
    has served what the handler sent. *)
Section Gateway.

Context {Store : Type} (serve : Request → Store → Store).

Definition deliver (reqs : list Request) (db : Store) : Store :=
  foldl (λ db r, serve r db) db reqs.

End Gateway.

(** ** A concrete page *)

(** The scenario of the specification: task A pending, task B
    completed; and a third entry whose status never arrived. *)
Module Scenario.

Import TodoList.

Definition taskA : Todo := {| id := "1"; body := "A"; status := Some "pending" |}.
Definition taskB : Todo := {| id := "2"; body := "B"; status := Some "completed" |}.
Definition taskC : Todo := {| id := "3"; body := "C"; status := None |}.

Definition tasks : list Todo := [taskA; taskB; taskC].

Definition loaded : TodoList.State :=
  {| filterStatus := "pending"; data := Some tasks |}.

(** The form holds a text while an earlier create request is still
    in flight. *)
Definition typing_while_creating : CreateTodoForm.State :=
  {| CreateTodoForm.todoBody := "Walk dog";
     CreateTodoForm.latest := 1;
     CreateTodoForm.inFlight := [1] |}.

Definition typing : CreateTodoForm.State :=
  {| CreateTodoForm.todoBody := "Walk dog";
     CreateTodoForm.latest := 0;
     CreateTodoForm.inFlight := [] |}.



Definition accept (message : string) : bool := true.
Definition decline (message : string) : bool := false.

(** A gateway that only counts the requests it served. *)
Definition counting (r : Request) (served : nat) : nat := S served.

End Scenario.

(** ** Runs of handlers *)

Module Runs.

(** One handler per element, one after the other. *)
Fixpoint each {Σ A} (f : A → M Σ unit) (l : list A) : M Σ unit :=
  match l with
  | [] => mret ()
  | x :: rest => f x;; each f rest
  end.

(** All the requests of a run of the form, oldest first. *)
Definition all_sent (evs : list CreateTodoForm.Event) (st : CreateTodoForm.State)
    : list Request :=
  concat (map snd (CreateTodoForm.trace evs st).1).

Definition is_refetch (r : Request) : bool :=
  match r with
  | GetAll _ => true
  | _ => false
  end.

Definition is_success (ev : CreateTodoForm.Event) : bool :=
  match ev with
  | CreateTodoForm.Settled _ Succeeded => true
  | _ => false
  end.

(** The form keeps at most the latest request in flight. *)
Definition one_in_flight (st : CreateTodoForm.State) : Prop :=
  CreateTodoForm.inFlight st = [] ∨
  CreateTodoForm.inFlight st = [CreateTodoForm.latest st].

(** The two statuses a todo has, by the comment at the head of
    [TodoList.tsx]. *)
Definition known_status (s : Js.value) : Prop :=
  s = Some "pending" ∨ s = Some "completed".

End Runs.

(** * Properties *)

(** ** Running handlers *)

Lemma sent_bind {Σ A B} (m : M Σ A) (k : A → M Σ B) (st : Σ) :
  sent (m ≫= k) st = sent m st ++ sent (k (result m st)) (after m st).
Proof.
  unfold sent, after, result, mbind, M_bind.
  destruct (m st) as [[a st1] out1]; simpl.
  by destruct (k a st1) as [[b st2] out2].
Qed.

Lemma after_bind {Σ A B} (m : M Σ A) (k : A → M Σ B) (st : Σ) :
  after (m ≫= k) st = after (k (result m st)) (after m st).
Proof.
  unfold after, result, mbind, M_bind.
  destruct (m st) as [[a st1] out1]; simpl.
  by destruct (k a st1) as [[b st2] out2].
Qed.

Lemma result_bind {Σ A B} (m : M Σ A) (k : A → M Σ B) (st : Σ) :
  result (m ≫= k) st = result (k (result m st)) (after m st).
Proof.
  unfold after, result, mbind, M_bind.
  destruct (m st) as [[a st1] out1]; simpl.
  by destruct (k a st1) as [[b st2] out2].
Qed.

Lemma deliver_nil {Store} (serve : Request → Store → Store) (db : Store) :
  deliver serve [] db = db.
Proof. reflexivity. Qed.

(** ** The filtered view *)

Section FilteredView.

Import TodoList.

Lemma strict_eq_true (a : Js.value) (b : string) :
  Js.strict_eq a b = true ↔ a = Some b.
Proof.
  destruct a as [s|]; simpl.
  - rewrite bool_decide_eq_true. split; congruence.
  - split; discriminate.
Qed.

Lemma filterCallback_all (todo : Todo) : filterCallback "all" todo = true.
Proof. reflexivity. Qed.

Lemma filterCallback_status (f : string) (todo : Todo) :
  f ≠ "all" → (filterCallback f todo = true ↔ status todo = Some f).
Proof.
  intros Hf. unfold filterCallback.
  rewrite bool_decide_eq_false_2 by done.
  apply strict_eq_true.
Qed.

Lemma filter_keeps_all {A} (p : A → bool) (l : list A) :
  Forall (λ x, p x = true) l → List.filter p l = l.
Proof.
  induction 1 as [|x l Hx _ IH]; simpl; [done|].
  by rewrite Hx, IH.
Qed.

Lemma filter_sublist {A} (p : A → bool) (l : list A) :
  sublist (List.filter p l) l.
Proof.
  induction l as [|x l IH]; simpl.
  - constructor.
  - destruct (p x); by constructor.
Qed.

Lemma filter_mono {A} (p : A → bool) (l1 l2 : list A) :
  sublist l1 l2 → sublist (List.filter p l1) (List.filter p l2).
Proof.
  induction 1 as [|x l1 l2 _ IH|x l1 l2 _ IH]; simpl.
  - constructor.
  - destruct (p x); [by constructor | done].
  - destruct (p x); [by constructor | done].
Qed.

(** C1. With the filter ['all'] the filtered list is the list itself.
    With any other filter [f] (so with ['pending'] and with
    ['completed']) it holds exactly the todos whose status is [f],
    in the order of the list: it is a sublist of the list, its
    elements are those of the list with status [f], and every
    sublist of the list made of todos with status [f] is a sublist
    of it, so no occurrence is lost.  A todo whose status is
    undefined is in it for no such [f]. *)
Theorem filteredTodos_exact (todos : list Todo) (f : string) :
  (f = "all" → filteredTodos todos f = todos) ∧
  (f ≠ "all" →
     sublist (filteredTodos todos f) todos ∧
     (∀ todo, todo ∈ filteredTodos todos f ↔
              todo ∈ todos ∧ status todo = Some f) ∧
     (∀ l, sublist l todos → Forall (λ todo, status todo = Some f) l →
           sublist l (filteredTodos todos f)) ∧
     (∀ todo, status todo = None → todo ∉ filteredTodos todos f)).
Proof.
  unfold filteredTodos. split.
  - intros ->. apply filter_keeps_all, Forall_forall.
    intros todo _. apply filterCallback_all.
  - intros Hf.
    assert (Hin : ∀ todo, todo ∈ List.filter (filterCallback f) todos ↔
                          todo ∈ todos ∧ status todo = Some f).
    { intros todo. rewrite !list_elem_of_In, filter_In.
      by rewrite (filterCallback_status f todo Hf). }
    split; [apply filter_sublist|].
    split; [exact Hin|]. split.
    + intros l Hl Hall.
      rewrite <- (filter_keeps_all (filterCallback f) l).
      * by apply filter_mono.
      * eapply Forall_impl; [exact Hall|].
        intros todo Hs. by apply filterCallback_status.
    + intros todo Hnone [_ Hs]%Hin. congruence.
Qed.

(** The scenario of the specification: under ['pending'] only task A
    is shown, under ['completed'] only task B. *)
Example scenario_pending_rows :
  render Scenario.loaded
    = [{| row_key := "1"; checked := false; line_through := false; label := "A" |}].
Proof. reflexivity. Qed.

Example scenario_completed_rows :
  render (after (handleTabChange "completed") Scenario.loaded)
    = [{| row_key := "2"; checked := true; line_through := true; label := "B" |}].
Proof. reflexivity. Qed.

End FilteredView.

(** The theorem at the scenario: under ['all'] the three entries stay,
    under ['pending'] the view is a sublist that leaves out the entry
    without a status. *)
Lemma filteredTodos_exact_scenario :
  TodoList.filteredTodos Scenario.tasks "all" = Scenario.tasks ∧
  sublist (TodoList.filteredTodos Scenario.tasks "pending") Scenario.tasks ∧
  Scenario.taskC ∉ TodoList.filteredTodos Scenario.tasks "pending".
Proof.
  split.
  - apply (filteredTodos_exact Scenario.tasks "all"). reflexivity.
  - assert (Hne : "pending" ≠ "all") by discriminate.
    destruct (proj2 (filteredTodos_exact Scenario.tasks "pending") Hne)
      as (Hsub & _ & _ & Hnone).
    split; [exact Hsub|]. apply Hnone. reflexivity.
Defined.

(** ** Toggling *)

Section Toggle.

Import TodoList.

Lemma sent_handleClickToUpdateStatus (id : string) (cs : Js.value) (st : State) :
  sent (handleClickToUpdateStatus id cs) st = [UpdateStatus id (newStatus cs)].
Proof. reflexivity. Qed.

Lemma after_handleClickToUpdateStatus (id : string) (cs : Js.value) (st : State) :
  after (handleClickToUpdateStatus id cs) st = st.
Proof. reflexivity. Qed.

Lemma newStatus_completed (cs : Js.value) :
  newStatus cs = "completed" ↔ cs = Some "pending".
Proof.
  unfold newStatus. rewrite <- strict_eq_true.
  destruct (Js.strict_eq cs "pending"); split; congruence.
Qed.

Lemma newStatus_pending (cs : Js.value) :
  cs ≠ Some "pending" → newStatus cs = "pending".
Proof.
  intros Hcs. unfold newStatus.
  destruct (Js.strict_eq cs "pending") eqn:E; [|done].
  by apply strict_eq_true in E.
Qed.

(** C2. For a status [s] that is ['pending'] or ['completed'], the
    first toggle sends the other status [s1], and toggling the task
    once its status is [s1] sends [s] again: two toggles come back
    to the status they started from. *)
Theorem toggle_twice_round_trip (id s : string) (st st' : State) :
  s = "pending" ∨ s = "completed" →
  ∃ s1,
    sent (handleClickToUpdateStatus id (Some s)) st = [UpdateStatus id s1] ∧
    s1 ≠ s ∧
    sent (handleClickToUpdateStatus id (Some s1)) st' = [UpdateStatus id s].
Proof.
  intros [-> | ->]; rewrite sent_handleClickToUpdateStatus;
    eexists; (split; [reflexivity|]); split; done.
Qed.

Lemma toggle_twice_round_trip_scenario :
  ∃ s1,
    sent (handleClickToUpdateStatus "1" (Some "pending")) Scenario.loaded
      = [UpdateStatus "1" s1] ∧
    s1 ≠ "pending" ∧
    sent (handleClickToUpdateStatus "1" (Some s1)) Scenario.loaded
      = [UpdateStatus "1" "pending"].
Proof.
  apply (toggle_twice_round_trip "1" "pending" Scenario.loaded Scenario.loaded).
  left. reflexivity.
Defined.

(** C10. The new status is ['completed'] only for the current status
    ['pending'].  For every other current status, ['completed'] and
    the undefined one among them, the handler sends ['pending'] and
    nothing else; so a todo without a status is sent to ['pending'],
    not turned down. *)
Theorem toggle_of_non_pending (id : string) (currentStatus : Js.value) (st : State) :
  (newStatus currentStatus = "completed" ↔ currentStatus = Some "pending") ∧
  (currentStatus ≠ Some "pending" →
     newStatus currentStatus = "pending" ∧
     sent (handleClickToUpdateStatus id currentStatus) st
       = [UpdateStatus id "pending"]) ∧
  sent (handleClickToUpdateStatus id (Some "completed")) st
    = [UpdateStatus id "pending"] ∧
  sent (handleClickToUpdateStatus id None) st = [UpdateStatus id "pending"].
Proof.
  split; [apply newStatus_completed|].
  split; [|by rewrite !sent_handleClickToUpdateStatus].
  intros Hcs. rewrite sent_handleClickToUpdateStatus.
  by rewrite (newStatus_pending currentStatus Hcs).
Qed.

Lemma toggle_of_non_pending_scenario :
  newStatus (Some "archived") = "pending" ∧
  sent (handleClickToUpdateStatus "3" (Some "archived")) Scenario.loaded
    = [UpdateStatus "3" "pending"].
Proof.
  apply (toggle_of_non_pending "3" (Some "archived") Scenario.loaded).
  discriminate.
Defined.

End Toggle.

(** ** Deleting *)

Section Delete.

Import TodoList Dom.

Context {Store : Type} (serve : Request → Store → Store).

Lemma handleDeleteItem_confirmed (confirm : string → bool) (id : string) (st : State) :
  confirm "Delete this todo?" = true →
  handleDeleteItem confirm id st = ((), st, [Delete id]).
Proof. intros H. unfold handleDeleteItem. by rewrite H. Qed.

Lemma handleDeleteItem_declined (confirm : string → bool) (id : string) (st : State) :
  confirm "Delete this todo?" = false →
  handleDeleteItem confirm id st = ((), st, []).
Proof. intros H. unfold handleDeleteItem. by rewrite H. Qed.

(** A click on the delete icon runs the icon's handler and stops
    there. *)
Lemma click_DeleteIcon (confirm : string → bool) (todo : Todo) (st : State) :
  sent (click confirm todo DeleteIcon) st
    = sent (handleDeleteItem confirm (id todo)) st ∧
  after (click confirm todo DeleteIcon) st
    = after (handleDeleteItem confirm (id todo)) st ∧
  propagationStopped (result (click confirm todo DeleteIcon) st) = true.
Proof.
  unfold click, sent, after, result; simpl.
  unfold XMarkIcon_onClick, mbind, M_bind, mret, M_ret.
  destruct (handleDeleteItem confirm (id todo) st) as [[[] st1] out]; simpl.
  by rewrite !app_nil_r.
Qed.

(** C3. When the user declines the prompt, [handleDeleteItem] sends
    nothing and leaves the state of the component as it was, and so
    does the whole click on the delete icon; the gateway's store,
    having nothing to serve, is the store it was. *)
Theorem decline_delete_changes_nothing
    (confirm : string → bool) (todo : Todo) (st : State) (db : Store) :
  confirm "Delete this todo?" = false →
  sent (handleDeleteItem confirm (id todo)) st = [] ∧
  after (handleDeleteItem confirm (id todo)) st = st ∧
  sent (click confirm todo DeleteIcon) st = [] ∧
  after (click confirm todo DeleteIcon) st = st ∧
  render (after (click confirm todo DeleteIcon) st) = render st ∧
  deliver serve (sent (click confirm todo DeleteIcon) st) db = db.
Proof.
  intros Hno.
  destruct (click_DeleteIcon confirm todo st) as (Hs & Ha & _).
  rewrite Hs, Ha. unfold sent, after.
  rewrite (handleDeleteItem_declined confirm (id todo) st Hno); simpl.
  by repeat split.
Qed.

(** C9. A click on the delete icon of a row sends what
    [handleDeleteItem] sends for that row, that is nothing or the one
    delete request, and never an update of the status: the click
    does not reach the handler of the row. *)
Theorem delete_click_never_toggles
    (confirm : string → bool) (todo : Todo) (st : State) :
  sent (click confirm todo DeleteIcon) st
    = (if confirm "Delete this todo?" then [Delete (id todo)] else []) ∧
  (∀ r, r ∈ sent (click confirm todo DeleteIcon) st → r = Delete (id todo)) ∧
  (∀ todoId s, UpdateStatus todoId s ∉ sent (click confirm todo DeleteIcon) st) ∧
  after (click confirm todo DeleteIcon) st = st.
Proof.
  destruct (click_DeleteIcon confirm todo st) as (Hs & Ha & _).
  rewrite Hs, Ha. unfold sent, after.
  destruct (confirm "Delete this todo?") eqn:E.
  - rewrite (handleDeleteItem_confirmed confirm (id todo) st E); simpl.
    repeat split.
    + intros r Hr. by apply list_elem_of_singleton in Hr.
    + intros todoId s Hr. by apply list_elem_of_singleton in Hr.
  - rewrite (handleDeleteItem_declined confirm (id todo) st E); simpl.
    repeat split.
    + intros r Hr. by apply elem_of_nil in Hr.
    + intros todoId s Hr. by apply elem_of_nil in Hr.
Qed.

(** The row's own handler does run when the click lands elsewhere in
    the row, and it would run after the icon's handler, had that one
    not stopped the propagation. *)
Lemma click_RowBody (confirm : string → bool) (todo : Todo) (st : State) :
  sent (click confirm todo RowBody) st
    = [UpdateStatus (id todo) (newStatus (status todo))].
Proof. reflexivity. Qed.

Lemma bubble_reaches_row (confirm : string → bool) (todo : Todo) (st : State) :
  confirm "Delete this todo?" = true →
  sent (bubble [λ e, handleDeleteItem confirm (id todo);; mret e;
                li_onClick todo] mouse_click) st
    = [Delete (id todo); UpdateStatus (id todo) (newStatus (status todo))].
Proof.
  intros H. unfold sent; simpl. unfold mbind, M_bind.
  by rewrite (handleDeleteItem_confirmed confirm (id todo) st H).
Qed.

(** At the scenario: accepting the prompt on the row of task A sends
   the delete request for it and nothing more. *)
Example accept_delete_taskA :
  sent (click Scenario.accept Scenario.taskA DeleteIcon) Scenario.loaded
    = [Delete "1"].
Proof. reflexivity. Qed.

End Delete.

Lemma decline_delete_changes_nothing_scenario :
  sent (TodoList.handleDeleteItem Scenario.decline "1") Scenario.loaded = [] ∧
  after (TodoList.handleDeleteItem Scenario.decline "1") Scenario.loaded
    = Scenario.loaded ∧
  sent (TodoList.click Scenario.decline Scenario.taskA TodoList.DeleteIcon)
    Scenario.loaded = [] ∧
  after (TodoList.click Scenario.decline Scenario.taskA TodoList.DeleteIcon)
    Scenario.loaded = Scenario.loaded ∧
  TodoList.render
    (after (TodoList.click Scenario.decline Scenario.taskA TodoList.DeleteIcon)
       Scenario.loaded) = TodoList.render Scenario.loaded ∧
  deliver Scenario.counting
    (sent (TodoList.click Scenario.decline Scenario.taskA TodoList.DeleteIcon)
       Scenario.loaded) 0 = 0.
Proof.
  apply (decline_delete_changes_nothing Scenario.counting Scenario.decline
           Scenario.taskA Scenario.loaded 0).
  reflexivity.
Defined.

(** ** The creation form *)

Section Form.

Import CreateTodoForm Dom.

Lemma handleKeyDown_Enter (st : State) :
  handleKeyDown (keydown "Enter") st
    = (preventDefault (keydown "Enter"),
       {| todoBody := ""; latest := S (latest st);
          inFlight := inFlight st ++ [S (latest st)] |},
       [Create (todoBody st)]).
Proof. reflexivity. Qed.

Lemma handleKeyDown_other (k : string) (st : State) :
  k ≠ "Enter" → handleKeyDown (keydown k) st = (keydown k, st, []).
Proof.
  intros Hk. unfold handleKeyDown; simpl.
  by rewrite bool_decide_eq_false_2.
Qed.

Lemma button_onClick_run (st : State) :
  button_onClick st
    = ((), {| todoBody := ""; latest := S (latest st);
              inFlight := inFlight st ++ [S (latest st)] |},
       [Create (todoBody st)]).
Proof. reflexivity. Qed.

Lemma click_button_enabled (st : State) :
  isCreatingTodo st = false → click_button st = button_onClick st.
Proof.
  intros H. unfold click_button, mbind, M_bind, get, button_disabled.
  rewrite H. destruct (button_onClick st) as [[[] st2] out2]. done.
Qed.

Lemma click_button_disabled (st : State) :
  isCreatingTodo st = true → click_button st = ((), st, []).
Proof.
  intros H. unfold click_button, mbind, M_bind, get, button_disabled.
  by rewrite H.
Qed.

Lemma createTodo_settled_run (n : nat) (o : Outcome) (st : State) :
  createTodo_settled n o st
    = ((), {| todoBody := todoBody st; latest := latest st;
              inFlight :=
                List.filter (λ m, negb (bool_decide (m = n))) (inFlight st) |},
       match o with Succeeded => [GetAll getAll_input] | Failed => [] end).
Proof. by destruct o. Qed.


Lemma elem_of_inFlight_settled (m n : nat) (fl : list nat) :
  m ∈ List.filter (λ m, negb (bool_decide (m = n))) fl ↔ m ∈ fl ∧ m ≠ n.
Proof.
  rewrite !list_elem_of_In, filter_In, negb_true_iff, bool_decide_eq_false.
  done.
Qed.


Lemma isCreatingTodo_settled_latest (o : Outcome) (st : State) :
  isCreatingTodo (after (createTodo_settled (latest st) o) st) = false.
Proof.
  unfold after. rewrite createTodo_settled_run.
  apply bool_decide_eq_false; simpl. rewrite elem_of_inFlight_settled.
  by intros [_ ?].
Qed.

(** The Enter key and the handler of the button run the same code. *)
Lemma enter_runs_button_handler (st : State) :
  sent (handleKeyDown (keydown "Enter")) st = sent button_onClick st ∧
  after (handleKeyDown (keydown "Enter")) st = after button_onClick st.
Proof. done. Qed.

(** C4, as the code has it.  While no create request is in flight,
    so that the Add button is enabled, pressing Enter in the input
    and clicking the button send the same single create request,
    with the text of the input as its body, and leave the form in
    the same state. *)
Theorem enter_same_request_as_click (st : State) :
  isCreatingTodo st = false →
  sent (step (KeyDown "Enter")) st = [Create (todoBody st)] ∧
  sent (step Click) st = [Create (todoBody st)] ∧
  after (step (KeyDown "Enter")) st = after (step Click) st.
Proof.
  intros Hidle. unfold sent, after, step.
  by rewrite (click_button_enabled st Hidle), button_onClick_run.
Qed.

Lemma enter_same_request_as_click_scenario :
  sent (step (KeyDown "Enter")) Scenario.typing = [Create "Walk dog"] ∧
  sent (step Click) Scenario.typing = [Create "Walk dog"] ∧
  after (step (KeyDown "Enter")) Scenario.typing
    = after (step Click) Scenario.typing.
Proof.
  apply (enter_same_request_as_click Scenario.typing). reflexivity.
Defined.

(** C4, as the specification words it, fails while a create request is in
    flight: with the text "Walk dog" in the input, Enter sends the
    create request and the click on the disabled button sends
    nothing. *)
Lemma enter_differs_from_click_while_creating :
  sent (step (KeyDown "Enter")) Scenario.typing_while_creating
    = [Create "Walk dog"] ∧
  sent (step Click) Scenario.typing_while_creating = [] ∧
  ¬ (∀ st : State, sent (step (KeyDown "Enter")) st = sent (step Click) st).
Proof.
  split; [reflexivity|]. split; [reflexivity|].
  intros H. specialize (H Scenario.typing_while_creating). discriminate H.
Qed.

(** C5. On the Enter path and on the click path alike, the handler
    sends the create request with the text of the input and leaves
    the input empty, in the same run and before any outcome is
    known; and whichever request settles afterwards, and whichever
    way, the input is still empty. *)
Theorem submit_clears_input (st : State) (n : nat) (o : Outcome) :
  (sent (handleKeyDown (keydown "Enter")) st = [Create (todoBody st)] ∧
   todoBody (after (handleKeyDown (keydown "Enter")) st) = "" ∧
   todoBody (after (createTodo_settled n o)
               (after (handleKeyDown (keydown "Enter")) st)) = "") ∧
  (sent button_onClick st = [Create (todoBody st)] ∧
   todoBody (after button_onClick st) = "" ∧
   todoBody (after (createTodo_settled n o) (after button_onClick st)) = "") ∧
  (∀ ev b, Create b ∈ sent (step ev) st →
     b = todoBody st ∧
     todoBody (after (step ev) st) = "" ∧
     todoBody (after (step (Settled n o)) (after (step ev) st)) = "").
Proof.
  split; [by destruct o|]. split; [by destruct o|].
  intros ev b Hb. destruct ev as [value|k| |n' o']; unfold sent, after in *;
    cbn [step] in *.
  - by apply elem_of_nil in Hb.
  - unfold mbind, M_bind in *.
    destruct (decide (k = "Enter")) as [->|Hk].
    + rewrite handleKeyDown_Enter in *; simpl in *.
      apply list_elem_of_singleton in Hb. injection Hb as ->.
      by rewrite createTodo_settled_run.
    + rewrite (handleKeyDown_other k st Hk) in Hb; simpl in Hb.
      by apply elem_of_nil in Hb.
  - destruct (isCreatingTodo st) eqn:E.
    + rewrite (click_button_disabled st E) in Hb; simpl in Hb.
      by apply elem_of_nil in Hb.
    + rewrite (click_button_enabled st E), button_onClick_run in *; simpl in *.
      apply list_elem_of_singleton in Hb. injection Hb as ->.
      by rewrite createTodo_settled_run.
  - rewrite createTodo_settled_run in Hb; simpl in Hb. destruct o'.
    + by apply list_elem_of_singleton in Hb.
    + by apply elem_of_nil in Hb.
Qed.

End Form.

(** ** The Add button while a create request is in flight *)

Section InFlight.

Import CreateTodoForm Dom.







(** The flag is the button's only guard: the next click after the
    latest request has settled submits again. *)
Lemma click_after_settled (o : Outcome) (st : State) :
  sent click_button (after (createTodo_settled (latest st) o) st)
    = [Create (todoBody st)].
Proof.
  unfold sent.
  rewrite (click_button_enabled _ (isCreatingTodo_settled_latest o st)).
  by destruct o.
Qed.

End InFlight.

(** ** The list before any data *)

Section NoData.

Import TodoList.

Lemma filteredTodos_nil (f : string) : filteredTodos [] f = [].
Proof. reflexivity. Qed.

(** C6. As long as the list query has given no data, whether it has
    not answered yet or has failed, [todos] is the empty list and
    the component renders no row, under every filter; a failed
    response and a change of tab leave it so. *)
Theorem no_data_renders_empty (st : State) :
  data st = None →
  todos st = [] ∧
  render st = [] ∧
  render (after (getAll_settled None) st) = [] ∧
  (∀ value, render (after (handleTabChange value) st) = []).
Proof.
  intros Hnone. unfold render, todos, after; simpl. by rewrite Hnone.
Qed.

Lemma no_data_renders_empty_initial :
  todos initial = [] ∧
  render initial = [] ∧
  render (after (getAll_settled None) initial) = [] ∧
  (∀ value, render (after (handleTabChange value) initial) = []).
Proof. apply (no_data_renders_empty initial). reflexivity. Defined.

(** Once data has come the rows are those of the data. *)
Lemma data_renders_rows (l : list Todo) (st : State) :
  render (after (getAll_settled (Some l)) st)
    = map renderRow (filteredTodos l (filterStatus st)).
Proof. reflexivity. Qed.

End NoData.

(** ** Mutations and the re-fetch *)

Section Refetch.

Import Page.





End Refetch.

(** * Further properties of the two components *)

(** ** The views of the three tabs *)

Section Tabs.

Import TodoList Runs.

Lemma filter_comm {A} (p q : A → bool) (l : list A) :
  List.filter p (List.filter q l) = List.filter q (List.filter p l).
Proof.
  induction l as [|x l IH]; simpl; [done|].
  destruct (p x) eqn:Hp, (q x) eqn:Hq; simpl; rewrite ?Hp, ?Hq, IH; done.
Qed.

Lemma filter_none {A} (p : A → bool) (l : list A) :
  Forall (λ x, p x = false) l → List.filter p l = [].
Proof.
  induction 1 as [|x l Hx _ IH]; simpl; [done|]. by rewrite Hx.
Qed.

Lemma filter_satisfies {A} (p : A → bool) (l : list A) :
  Forall (λ x, p x = true) (List.filter p l).
Proof.
  apply Forall_forall. intros x Hx.
  apply list_elem_of_In, filter_In in Hx. by destruct Hx.
Qed.

(** X1. When every todo of the list has one of the two statuses, the
    view of the tab ['pending'] followed by the view of the tab
    ['completed'] is a rearrangement of the whole list: each todo is
    shown under exactly one of the two tabs, as often as it occurs. *)
Theorem pending_completed_partition (l : list Todo) :
  Forall (λ todo, known_status (status todo)) l →
  filteredTodos l "pending" ++ filteredTodos l "completed" ≡ₚ l ∧
  length (filteredTodos l "pending") + length (filteredTodos l "completed")
    = length l.
Proof.
  intros Hall.
  assert (Hperm : filteredTodos l "pending" ++ filteredTodos l "completed" ≡ₚ l).
  { unfold filteredTodos.
    induction Hall as [|todo l [Hs|Hs] _ IH]; simpl; [done| |].
    - assert (filterCallback "pending" todo = true) as ->
        by (by apply filterCallback_status).
      assert (filterCallback "completed" todo = false) as ->
        by (unfold filterCallback; by rewrite Hs).
      simpl. by rewrite IH.
    - assert (filterCallback "pending" todo = false) as ->
        by (unfold filterCallback; by rewrite Hs).
      assert (filterCallback "completed" todo = true) as ->
        by (by apply filterCallback_status).
      by rewrite <- Permutation_middle, IH. }
  split; [done|].
  by rewrite <- length_app, Hperm.
Qed.

Lemma pending_completed_partition_scenario :
  TodoList.filteredTodos [Scenario.taskA; Scenario.taskB; Scenario.taskA] "pending"
    ++ TodoList.filteredTodos [Scenario.taskA; Scenario.taskB; Scenario.taskA]
         "completed"
    ≡ₚ [Scenario.taskA; Scenario.taskB; Scenario.taskA] ∧
  length (TodoList.filteredTodos
            [Scenario.taskA; Scenario.taskB; Scenario.taskA] "pending")
    + length (TodoList.filteredTodos
                [Scenario.taskA; Scenario.taskB; Scenario.taskA] "completed")
    = length [Scenario.taskA; Scenario.taskB; Scenario.taskA].
Proof.
  apply (pending_completed_partition
           [Scenario.taskA; Scenario.taskB; Scenario.taskA]).
  repeat first [apply List.Forall_nil | apply List.Forall_cons];
    [left | right | left]; reflexivity.
Defined.

(** X2. Filtering a view again: by the same filter it changes
    nothing, by two filters the order does not matter, and by two
    different filters other than ['all'] nothing is left, so no todo
    is shown under two status tabs. *)
Theorem filteredTodos_twice (l : list Todo) (f g : string) :
  filteredTodos (filteredTodos l f) f = filteredTodos l f ∧
  filteredTodos (filteredTodos l f) g = filteredTodos (filteredTodos l g) f ∧
  (f ≠ "all" → g ≠ "all" → f ≠ g → filteredTodos (filteredTodos l f) g = []).
Proof.
  unfold filteredTodos. split; [|split].
  - apply filter_keeps_all, filter_satisfies.
  - apply filter_comm.
  - intros Hf Hg Hfg. apply filter_none.
    eapply Forall_impl; [apply (filter_satisfies (filterCallback f))|].
    intros todo Hs; simpl in Hs.
    apply (filterCallback_status f todo Hf) in Hs.
    destruct (filterCallback g todo) eqn:E; [|done].
    apply (filterCallback_status g todo Hg) in E. congruence.
Qed.

Lemma filteredTodos_twice_scenario :
  TodoList.filteredTodos (TodoList.filteredTodos Scenario.tasks "pending")
    "completed" = [].
Proof.
  apply (filteredTodos_twice Scenario.tasks "pending" "completed"); discriminate.
Defined.

End Tabs.

(** ** The rows *)

Section Rows.

Import TodoList Runs.

Lemma elem_of_render (row : Row) (st : State) :
  row ∈ render st ↔
  ∃ todo, row = renderRow todo ∧ todo ∈ todos st ∧
          filterCallback (filterStatus st) todo = true.
Proof.
  unfold render, filteredTodos. rewrite list_elem_of_In, in_map_iff. split.
  - intros (todo & <- & Hin). apply filter_In in Hin as [Hin Hcb].
    exists todo. by rewrite list_elem_of_In.
  - intros (todo & -> & Hin & Hcb). exists todo. split; [done|].
    apply filter_In. by rewrite <- list_elem_of_In.
Qed.

(** X3. Under a status tab every row looks the same: with the filter
    [f], which is not ['all'], each row shown is checked and struck
    through exactly when [f] is ['completed'].  So the tab
    ['completed'] shows only checked rows and the tab ['pending'] only
    unchecked ones. *)
Theorem rows_uniform_under_filter (st : State) (f : string) :
  filterStatus st = f → f ≠ "all" →
  Forall (λ row, checked row = bool_decide (f = "completed") ∧
                 line_through row = bool_decide (f = "completed")) (render st).
Proof.
  intros Hst Hf. apply Forall_forall. intros row Hrow.
  apply elem_of_render in Hrow as (todo & -> & _ & Hcb).
  rewrite Hst in Hcb. apply (filterCallback_status f todo Hf) in Hcb.
  simpl. by rewrite Hcb.
Qed.

Lemma rows_uniform_under_filter_scenario :
  Forall (λ row, checked row = bool_decide ("pending" = "completed") ∧
                 line_through row = bool_decide ("pending" = "completed"))
    (render Scenario.loaded).
Proof.
  apply (rows_uniform_under_filter Scenario.loaded "pending");
    [reflexivity | discriminate].
Defined.

Lemma NoDup_map_filter {A B} (g : A → B) (p : A → bool) (l : list A) :
  NoDup (map g l) → NoDup (map g (List.filter p l)).
Proof.
  induction l as [|x l IH]; simpl; [done|].
  intros [Hx Hl]%NoDup_cons. destruct (p x); simpl; [|by apply IH].
  apply NoDup_cons. split; [|by apply IH].
  intros Hin. apply Hx. rewrite list_elem_of_In in *.
  apply in_map_iff in Hin as (y & Hy & Hin). apply filter_In in Hin as [Hin _].
  apply in_map_iff. by exists y.
Qed.

(** X4. The key of a row is the id of its todo.  When the ids of the
    fetched todos are pairwise distinct, so are the keys of the rows
    shown, under every filter. *)
Theorem row_keys_distinct (st : State) :
  NoDup (map id (todos st)) →
  map row_key (render st) = map id (filteredTodos (todos st) (filterStatus st)) ∧
  NoDup (map row_key (render st)).
Proof.
  intros Hids.
  assert (Hkeys : map row_key (render st)
                  = map id (filteredTodos (todos st) (filterStatus st))).
  { unfold render. rewrite map_map. reflexivity. }
  split; [done|]. rewrite Hkeys. by apply NoDup_map_filter.
Qed.

Lemma row_keys_distinct_scenario :
  map row_key (render Scenario.loaded)
    = map id (filteredTodos (todos Scenario.loaded) (filterStatus Scenario.loaded)) ∧
  NoDup (map row_key (render Scenario.loaded)).
Proof.
  apply (row_keys_distinct Scenario.loaded).
  apply (bool_decide_unpack (NoDup (map id (todos Scenario.loaded)))).
  vm_compute. exact I.
Defined.

(** X5. A response of the list query replaces the fetched todos as a
    whole: the rows shown afterwards are those of the response under
    the filter that was active, whatever was shown before, so an id
    that the response no longer holds is the key of no row.  The
    filter itself is kept. *)
Theorem response_replaces_rows (l : list Todo) (st : State) (i : string) :
  (∀ todo, todo ∈ l → id todo ≠ i) →
  filterStatus (after (getAll_settled (Some l)) st) = filterStatus st ∧
  render (after (getAll_settled (Some l)) st)
    = map renderRow (filteredTodos l (filterStatus st)) ∧
  (∀ row, row ∈ render (after (getAll_settled (Some l)) st) → row_key row ≠ i).
Proof.
  intros Hgone. split; [done|]. split; [done|].
  intros row Hrow. apply elem_of_render in Hrow as (todo & -> & Hin & _).
  simpl. by apply Hgone.
Qed.

Lemma response_replaces_rows_scenario :
  filterStatus (after (getAll_settled (Some [Scenario.taskB])) Scenario.loaded)
    = filterStatus Scenario.loaded ∧
  render (after (getAll_settled (Some [Scenario.taskB])) Scenario.loaded)
    = map renderRow (filteredTodos [Scenario.taskB] (filterStatus Scenario.loaded)) ∧
  (∀ row,
     row ∈ render (after (getAll_settled (Some [Scenario.taskB])) Scenario.loaded) →
     row_key row ≠ "1").
Proof.
  apply (response_replaces_rows [Scenario.taskB] Scenario.loaded "1").
  intros todo Hin. apply list_elem_of_singleton in Hin. rewrite Hin. discriminate.
Defined.

Lemma last_cons_default {A} (l : list A) (x d : A) :
  List.last (x :: l) d = List.last l x.
Proof.
  revert x d. induction l as [|y l IH]; intros x d; [done|].
  change (List.last (x :: y :: l) d) with (List.last (y :: l) d).
  by rewrite !IH.
Qed.

Lemma sent_each_handleTabChange (values : list string) (st : State) :
  sent (each handleTabChange values) st = [] ∧
  data (after (each handleTabChange values) st) = data st ∧
  filterStatus (after (each handleTabChange values) st)
    = List.last values (filterStatus st).
Proof.
  revert st. induction values as [|v values IH]; intros st; [done|].
  cbn [each]. rewrite sent_bind, after_bind.
  destruct (IH (after (handleTabChange v) st)) as (Hs & Hd & Hf).
  rewrite Hs, Hd, Hf. repeat split.
  by rewrite last_cons_default.
Qed.

(** X6. Switching tabs only changes the filter.  Any sequence of tab
    changes sends no request and leaves the fetched todos as they
    were; the filter at the end is the last one chosen; and going
    back to the tab ['all'] shows a row for every fetched todo again,
    in the fetched order. *)
Theorem tab_changes_keep_data (values : list string) (st : State) :
  sent (each handleTabChange values) st = [] ∧
  todos (after (each handleTabChange values) st) = todos st ∧
  filterStatus (after (each handleTabChange values) st)
    = List.last values (filterStatus st) ∧
  render (after (handleTabChange "all") (after (each handleTabChange values) st))
    = map renderRow (todos st).
Proof.
  destruct (sent_each_handleTabChange values st) as (Hs & Hd & Hf).
  split; [done|]. split; [by unfold todos; rewrite Hd|]. split; [done|].
  unfold render, after at 1; simpl. unfold todos; simpl. rewrite Hd.
  f_equal. apply filter_keeps_all, Forall_forall. by intros todo _.
Qed.

End Rows.

(** ** Clicks on a row *)

Section RowClicks.

Import TodoList Dom Runs.

(** X7. The status a toggle sends is always one of the two statuses
    and never the current one, whatever the current status is, an
    unknown string or the undefined one included; and from the first
    toggle on the statuses sent alternate: a third toggle sends what
    the first one sent. *)
Theorem newStatus_valid_and_different (currentStatus : Js.value) :
  known_status (Some (newStatus currentStatus)) ∧
  currentStatus ≠ Some (newStatus currentStatus) ∧
  newStatus (Some (newStatus (Some (newStatus currentStatus))))
    = newStatus currentStatus.
Proof.
  unfold known_status.
  destruct (decide (currentStatus = Some "pending")) as [->|Hcs].
  - repeat split; [by right | done].
  - rewrite (newStatus_pending currentStatus Hcs).
    repeat split; [by left | congruence].
Qed.

(** X8. A click on a row changes nothing in the component, so the
    rows stay as they are until a response of the list query comes,
    and it sends only requests about the todo of the row.  On the
    delete icon it sends the delete request, or nothing when the
    prompt is declined.  On the checkbox or elsewhere in the row it
    sends one update of the status to the other one.  On the label it
    sends that same update twice: the click reaches the row, and then
    the label passes a click to the checkbox, which reaches the row
    again. *)
Theorem row_click_requests
    (confirm : string → bool) (todo : Todo) (target : Target) (st : State) :
  sent (click confirm todo target) st
    = match target with
      | DeleteIcon =>
          if confirm "Delete this todo?" then [Delete (id todo)] else []
      | Label =>
          [UpdateStatus (id todo) (newStatus (status todo));
           UpdateStatus (id todo) (newStatus (status todo))]
      | RowBody | Checkbox =>
          [UpdateStatus (id todo) (newStatus (status todo))]
      end ∧
  (∀ r, r ∈ sent (click confirm todo target) st →
        r = Delete (id todo) ∨
        r = UpdateStatus (id todo) (newStatus (status todo))) ∧
  after (click confirm todo target) st = st ∧
  render (after (click confirm todo target) st) = render st.
Proof.
  assert (Hrun :
    sent (click confirm todo target) st
      = match target with
        | DeleteIcon =>
            if confirm "Delete this todo?" then [Delete (id todo)] else []
        | Label =>
            [UpdateStatus (id todo) (newStatus (status todo));
             UpdateStatus (id todo) (newStatus (status todo))]
        | RowBody | Checkbox =>
            [UpdateStatus (id todo) (newStatus (status todo))]
        end ∧
    after (click confirm todo target) st = st).
  { destruct target; try done.
    destruct (click_DeleteIcon confirm todo st) as (Hs & Ha & _).
    rewrite Hs, Ha. unfold sent, after.
    destruct (confirm "Delete this todo?") eqn:E.
    - by rewrite (handleDeleteItem_confirmed confirm (id todo) st E).
    - by rewrite (handleDeleteItem_declined confirm (id todo) st E). }
  destruct Hrun as [Hsent Hafter]. rewrite Hafter, Hsent.
  repeat split. intros r Hr.
  destruct target; [| | |destruct (confirm "Delete this todo?")];
    repeat (apply elem_of_cons in Hr as [->|Hr]; [by auto|]);
    by apply elem_of_nil in Hr.
Qed.

End RowClicks.

(** ** Keys and runs of the form *)

Section FormRuns.

Import CreateTodoForm Dom Runs.

(** X9. A key pressed in the input submits only when it is Enter:
    the handler prevents the default action of the key exactly for
    Enter and sends a request exactly for Enter; any other key sends
    nothing and leaves the text and the flag as they were.  It never
    stops the propagation of the event. *)
Theorem keydown_acts_only_on_enter (k : string) (st : State) :
  (defaultPrevented (result (handleKeyDown (keydown k)) st) = true ↔ k = "Enter") ∧
  (sent (handleKeyDown (keydown k)) st ≠ [] ↔ k = "Enter") ∧
  (k ≠ "Enter" → after (handleKeyDown (keydown k)) st = st) ∧
  propagationStopped (result (handleKeyDown (keydown k)) st) = false.
Proof.
  unfold result, sent, after.
  destruct (decide (k = "Enter")) as [->|Hk].
  - rewrite handleKeyDown_Enter; simpl. repeat split; done.
  - rewrite (handleKeyDown_other k st Hk); simpl. repeat split; done.
Qed.

Lemma trace_cons (ev : Event) (evs : list Event) (st : State) :
  (trace (ev :: evs) st).1
    = (ev, sent (step ev) st) :: (trace evs (after (step ev) st)).1 ∧
  (trace (ev :: evs) st).2 = (trace evs (after (step ev) st)).2.
Proof. simpl. by destruct (trace evs (after (step ev) st)). Qed.

Lemma all_sent_cons (ev : Event) (evs : list Event) (st : State) :
  all_sent (ev :: evs) st = sent (step ev) st ++ all_sent evs (after (step ev) st).
Proof. unfold all_sent. by rewrite (proj1 (trace_cons ev evs st)). Qed.

Lemma step_Enter (st : State) :
  sent (step (KeyDown "Enter")) st = [Create (todoBody st)] ∧
  todoBody (after (step (KeyDown "Enter")) st) = "".
Proof. done. Qed.

Lemma all_sent_enters_empty (n : nat) (st : State) :
  todoBody st = "" →
  all_sent (replicate n (KeyDown "Enter")) st = replicate n (Create "").
Proof.
  revert st. induction n as [|n IH]; intros st Hst; [done|].
  cbn [replicate]. rewrite all_sent_cons.
  destruct (step_Enter st) as [-> Hafter].
  by rewrite Hst, (IH _ Hafter).
Qed.

(** X10. The Enter key is not held back while a create request is
    in flight, and the text is not checked before it is sent.  From
    any state, Enter pressed [n + 1] times in a row sends [n + 1]
    create requests: the first with the text of the input, each later
    one with the empty text. *)
Theorem repeated_enter_sends_empty_bodies (n : nat) (st : State) :
  all_sent (replicate (S n) (KeyDown "Enter")) st
    = Create (todoBody st) :: replicate n (Create "").
Proof.
  cbn [replicate]. rewrite all_sent_cons.
  destruct (step_Enter st) as [-> Hafter].
  by rewrite (all_sent_enters_empty n _ Hafter).
Qed.

Lemma step_sent_cases (ev : Event) (st : State) :
  sent (step ev) st = [] ∨
  (∃ b, sent (step ev) st = [Create b] ∧ is_success ev = false) ∨
  (sent (step ev) st = [GetAll getAll_input] ∧ is_success ev = true).
Proof.
  destruct ev as [value|k| |n o]; unfold sent, step.
  - by left.
  - unfold mbind, M_bind. destruct (decide (k = "Enter")) as [->|Hk].
    + rewrite handleKeyDown_Enter. right; left. by eexists.
    + rewrite (handleKeyDown_other k st Hk). by left.
  - destruct (isCreatingTodo st) eqn:E.
    + rewrite (click_button_disabled st E). by left.
    + rewrite (click_button_enabled st E), button_onClick_run.
      right; left. by eexists.
  - rewrite createTodo_settled_run. destruct o; [by right; right | by left].
Qed.

Lemma is_success_no_request (ev : Event) (st : State) :
  sent (step ev) st = [] → is_success ev = false.
Proof.
  by destruct ev as [value|k| |n [|]].
Qed.

(** X11. Over any run of the form, every event sends at most one
    request, each request is a create request or the list query with
    both statuses, and the list query is sent exactly once for each
    create request that settled with success: never for a failure,
    and never by typing, keys or clicks. *)
Theorem one_refetch_per_success (evs : list Event) (st : State) :
  Forall (λ entry, (length entry.2 ≤ 1)%nat) (trace evs st).1 ∧
  Forall (λ r, r = GetAll getAll_input ∨ ∃ b, r = Create b) (all_sent evs st) ∧
  length (List.filter is_refetch (all_sent evs st))
    = length (List.filter is_success evs).
Proof.
  revert st. induction evs as [|ev evs IH]; intros st.
  - repeat split; constructor.
  - destruct (IH (after (step ev) st)) as (IH1 & IH2 & IH3).
    rewrite all_sent_cons, (proj1 (trace_cons ev evs st)).
    rewrite List.filter_app, length_app, IH3. cbn [List.filter].
    destruct (step_sent_cases ev st) as [H|[(b & H & Hev)|[H Hev]]].
    + rewrite H, (is_success_no_request ev st H). split; [|split].
      * apply List.Forall_cons; [simpl; lia | done].
      * done.
      * done.
    + rewrite H, Hev. split; [|split].
      * apply List.Forall_cons; [simpl; lia | done].
      * apply List.Forall_cons; [right; by eexists | done].
      * done.
    + rewrite H, Hev. split; [|split].
      * apply List.Forall_cons; [simpl; lia | done].
      * apply List.Forall_cons; [by left | done].
      * done.
Qed.

Lemma one_in_flight_disabled (st : State) :
  one_in_flight st → (isCreatingTodo st = true ↔ inFlight st ≠ []).
Proof.
  unfold isCreatingTodo. rewrite bool_decide_eq_true.
  intros [H|H]; rewrite H.
  - split; [by intros ?%elem_of_nil | done].
  - split; [done | intros _; by apply list_elem_of_singleton].
Qed.

Lemma step_one_in_flight (ev : Event) (st : State) :
  is_enter ev = false → one_in_flight st → one_in_flight (after (step ev) st).
Proof.
  intros Hev Hst. destruct ev as [value|k| |n o]; cbn [step].
  - done.
  - simpl in Hev. apply bool_decide_eq_false in Hev.
    unfold after, mbind, M_bind. by rewrite (handleKeyDown_other k st Hev).
  - unfold after. destruct (isCreatingTodo st) eqn:E.
    + by rewrite (click_button_disabled st E).
    + rewrite (click_button_enabled st E), button_onClick_run.
      right; simpl. destruct Hst as [->|Hfl]; [done|]. exfalso.
      assert (isCreatingTodo st = true) as Hon; [|congruence].
      apply one_in_flight_disabled; [by right | by rewrite Hfl].
  - unfold after. rewrite createTodo_settled_run.
    destruct Hst as [H|H]; unfold one_in_flight; simpl; rewrite H; simpl.
    + by left.
    + case_bool_decide; [by left | by right].
Qed.

(** X12. When the create requests are sent with the Add button only,
    at most one is in flight at a time.  From a state with at most
    the latest request in flight, after any run without the Enter
    key, whatever is typed and clicked and whichever requests settle,
    at most one request is in flight, it is the latest, and the
    button is disabled exactly when there is one. *)
Theorem click_train_one_in_flight (evs : list Event) (st : State) :
  one_in_flight st →
  forallb (λ ev, negb (is_enter ev)) evs = true →
  one_in_flight (trace evs st).2 ∧
  (length (inFlight (trace evs st).2) ≤ 1)%nat ∧
  (button_disabled (trace evs st).2 = true ↔ inFlight (trace evs st).2 ≠ []).
Proof.
  intros Hst Hevs.
  assert (Hend : one_in_flight (trace evs st).2).
  { revert st Hst Hevs. induction evs as [|ev evs IH]; intros st Hst Hevs; [done|].
    rewrite (proj2 (trace_cons ev evs st)).
    simpl in Hevs. apply andb_true_iff in Hevs as [Hev Hevs].
    apply negb_true_iff in Hev. apply IH; [|done].
    by apply step_one_in_flight. }
  split; [done|]. split; [|by apply one_in_flight_disabled].
  destruct Hend as [->| ->]; simpl; lia.
Qed.

Lemma click_train_one_in_flight_scenario :
  one_in_flight
    (trace [Change "a"; Click; Click; Settled 1 Failed; Click] initial).2 ∧
  (length (inFlight
             (trace [Change "a"; Click; Click; Settled 1 Failed; Click] initial).2)
   ≤ 1)%nat ∧
  (button_disabled
     (trace [Change "a"; Click; Click; Settled 1 Failed; Click] initial).2 = true ↔
   inFlight (trace [Change "a"; Click; Click; Settled 1 Failed; Click] initial).2
     ≠ []).
Proof.
  apply (click_train_one_in_flight
           [Change "a"; Click; Click; Settled 1 Failed; Click] initial).
  - left. reflexivity.
  - reflexivity.
Defined.

Lemma all_sent_changes (values : list string) (evs : list Event) (st : State) :
  all_sent (map Change values ++ evs) st
    = all_sent evs {| todoBody := List.last values (todoBody st);
                      latest := latest st; inFlight := inFlight st |}.
Proof.
  revert st. induction values as [|v values IH]; intros st.
  - by destruct st.
  - cbn [map app]. rewrite all_sent_cons, IH.
    by rewrite last_cons_default.
Qed.

(** X13. The input is controlled by its last change: after the user
    has typed, whatever the values the input went through, Enter
    sends one create request whose body is the last value typed, or
    the text the input already held when nothing was typed. *)
Theorem enter_sends_last_typed (values : list string) (st : State) :
  all_sent (map Change values ++ [KeyDown "Enter"]) st
    = [Create (List.last values (todoBody st))].
Proof. by rewrite all_sent_changes. Qed.

End FormRuns.
